(** * Box 1 income-tax hook: a shallow embedding of [useBox1Calculator.js]

    The hook annualises the entered income, calls the [SalaryPaycheck]
    constructor of the [dutch-tax-income-calculator] package and reshapes the
    package's result into a summary with a display breakdown.

    JavaScript numbers are IEEE 754 binary64 values, so they are embedded as
    Rocq's primitive floats: [NaN], the two zeros and the infinities behave
    as they do in the browser.  The package itself is not part of the
    repository; it is a parameter of the development. *)

From Stdlib Require Import Floats Bool String List ZArith Lia.
Import ListNotations.

Local Open Scope string_scope.
Local Open Scope list_scope.
Local Open Scope bool_scope.

(** ** The fragment of JavaScript the hook relies on *)

Module JS.

(** Values that cross the boundary with the package: the [startFrom] and
    [choice] arguments, whatever a [throw] carries, and the [error] field
    of the summary. *)
Inductive value : Type :=
| VUndefined
| VNull
| VBool (b : bool)
| VNum (x : float)
| VStr (s : string)
| VError (message : string)   (* an [Error] instance with its message *)
| VNative (name : string).    (* a built-in reached through [Object.prototype] *)

(** How an expression finishes: with a value, or by throwing one. *)
Inductive completion (A : Type) : Type :=
| Normal (a : A)
| Throw (v : value).
Arguments Normal {A} a.
Arguments Throw {A} v.

(** [!x] on a number is true for [+0], [-0] and [NaN]. *)
Definition falsy (x : float) : bool := (x =? 0)%float || is_nan x.

(** [Number(x)] on a number is the number itself.  Incomes are embedded as
    numbers, as the hook documents them; an income the form still holds as
    text is not covered. *)
Definition Number (x : float) : float := x.

(** [ToNumber] of [undefined], of a function and of a plain object. *)
Definition NaN : float := nan.

(** Property names every object literal inherits from [Object.prototype];
    each of them holds a function, [__proto__] holds the prototype object:
    all are truthy and none is [null]. *)
Definition OBJECT_PROTOTYPE : list string :=
  [ "constructor"; "hasOwnProperty"; "isPrototypeOf"; "propertyIsEnumerable";
    "toLocaleString"; "toString"; "valueOf"; "__proto__";
    "__defineGetter__"; "__defineSetter__"; "__lookupGetter__";
    "__lookupSetter__" ].

(** The outcome of [obj[key]] on an object literal whose own properties
    hold values of type [A]. *)
Inductive property (A : Type) : Type :=
| Own (a : A)
| Inherited (name : string)
| Absent.
Arguments Own {A} a.
Arguments Inherited {A} name.
Arguments Absent {A}.

Fixpoint own_property {A : Type} (obj : list (string * A)) (key : string)
  : option A :=
  match obj with
  | [] => None
  | (k, a) :: rest => if String.eqb k key then Some a else own_property rest key
  end.

Definition inherited (key : string) : bool :=
  existsb (String.eqb key) OBJECT_PROTOTYPE.

Definition get {A : Type} (obj : list (string * A)) (key : string)
  : property A :=
  match own_property obj key with
  | Some a => Own a
  | None => if inherited key then Inherited key else Absent
  end.

(** [obj[key] || fallback] for an object literal of strings. *)
Definition or_string (p : property string) (fallback : string) : value :=
  match p with
  | Own s => if String.eqb s "" then VStr fallback else VStr s
  | Inherited name => VNative name
  | Absent => VStr fallback
  end.

(** What a property read on the package's result yields. *)
Inductive field : Type :=
| FUndefined
| FNull
| FNum (x : float).

(** [f ?? d]: the default replaces [undefined] and [null] only. *)
Definition nullish_or (f : field) (d : float) : float :=
  match f with
  | FNum x => x
  | FUndefined | FNull => d
  end.

(** [error.message] on a caught value.  Reading a property of [undefined]
    or [null] throws a [TypeError]; primitives and functions have no
    [message]. *)
Definition message_of (error : value) : completion value :=
  match error with
  | VUndefined =>
      Throw (VError "Cannot read properties of undefined (reading 'message')")
  | VNull =>
      Throw (VError "Cannot read properties of null (reading 'message')")
  | VError m => Normal (VStr m)
  | VBool _ | VNum _ | VStr _ | VNative _ => Normal VUndefined
  end.

End JS.
Import JS.

(** ** Constants of [box1Defaults.js] and of the hook *)

(** [PERIOD_MULTIPLIERS]; [None] is the [null] stored under [hourly]. *)
Definition PERIOD_MULTIPLIERS : list (string * option float) :=
  [ ("yearly", Some 1%float);
    ("monthly", Some 12%float);
    ("weekly", Some 52%float);
    ("daily", Some 260%float);
    ("hourly", None) ].

(** Years the package supports; the hook passes [year] on unchecked. *)
Definition BOX1_AVAILABLE_YEARS : list float :=
  [ 2025%float; 2024%float; 2023%float; 2022%float; 2021%float; 2020%float;
    2019%float ].

(** Periods as the package names them. *)
Definition PERIOD_TO_START_FROM : list (string * string) :=
  [ ("yearly", "Year");
    ("monthly", "Month");
    ("weekly", "Week");
    ("daily", "Day");
    ("hourly", "Hour") ].

(** The object literal the hook builds before calling the package. *)
Definition rulingChoiceMap : list (string * string) :=
  [ ("researchWorker", "research");
    ("youngProfessional", "young");
    ("other", "normal") ].

(** ** The input normaliser *)

Definition convertToYearlyIncome (income : float) (period : string)
  (hoursPerWeek : float) : float :=
  if falsy income || (income <=? 0)%float then 0%float
  else
    match get PERIOD_MULTIPLIERS period with
    | Own None => (income * hoursPerWeek * 52)%float
    | Own (Some multiplier) => (income * multiplier)%float
    | Inherited _ | Absent => (income * NaN)%float
    end.

(** ** The boundary with [dutch-tax-income-calculator] *)

Module Package.

(** First argument of [new SalaryPaycheck(...)]. *)
Record SalaryInput : Type := {
  income : float;
  allowance : bool;
  socialSecurity : bool;
  older : bool;
  hours : float
}.

(** Fourth argument. *)
Record Ruling : Type := {
  checked : bool;
  choice : value
}.

Record Args : Type := {
  salaryInput : SalaryInput;
  startFrom : value;
  year : float;
  ruling : Ruling
}.

(** The constructed object, seen through its property reads; a getter may
    throw. *)
Definition Paycheck : Type := string -> completion field.

(** The constructor: it returns an object or throws. *)
Definition Constructor : Type := Args -> completion Paycheck.

(** The properties the hook reads, in the order it reads them. *)
Definition FIELDS : list string :=
  [ "grossYear"; "grossMonth"; "grossWeek"; "grossDay"; "grossHour";
    "grossAllowance"; "taxableYear"; "taxFree"; "payrollTax"; "socialTax";
    "generalCredit"; "labourCredit"; "incomeTax"; "incomeTaxMonth";
    "netYear"; "netMonth"; "netWeek"; "netDay"; "netHour"; "netAllowance" ].

End Package.

(** ** Observable effects *)

Inductive event : Type :=
| Constructed (args : Package.Args)              (* [new SalaryPaycheck(...)] *)
| ConsoleError (label : string) (error : value). (* [console.error(label, error)] *)

(** A computation yields the events it performed, oldest first, and how it
    finished. *)
Definition eff (A : Type) : Type := (list event * completion A)%type.

Definition ret {A : Type} (a : A) : eff A := ([], Normal a).

Definition throw {A : Type} (v : value) : eff A := ([], Throw v).

Definition emit (e : event) : eff unit := ([e], Normal tt).

Definition bind {A B : Type} (m : eff A) (k : A -> eff B) : eff B :=
  match m with
  | (log, Normal a) => let (log', r) := k a in (log ++ log', r)
  | (log, Throw v) => (log, Throw v)
  end.

(** [try { body } catch (error) { handler }] *)
Definition try_catch {A : Type} (body : eff A) (handler : value -> eff A)
  : eff A :=
  match body with
  | (log, Throw v) => let (log', r) := handler v in (log ++ log', r)
  | (log, Normal a) => (log, Normal a)
  end.

Declare Scope eff_scope.
Delimit Scope eff_scope with eff.
Notation "x <- m ;; k" := (bind m (fun x => k))
  (at level 100, m at next level, right associativity) : eff_scope.
Notation "m ;;; k" := (bind m (fun _ => k))
  (at level 100, right associativity) : eff_scope.

(** ** Data of the hook *)

(** The [inputs] argument as the caller passes it, typed as the hook's
    documentation declares it; any property may be missing. *)
Module Raw.
Record Inputs : Type := {
  grossIncome : option float;
  period : option string;
  hoursPerWeek : option float;
  holidayAllowanceIncluded : option bool;
  older : option bool;
  ruling30Enabled : option bool;
  ruling30Category : option string;
  socialSecurity : option bool
}.
End Raw.

(** The locals bound by the destructuring at the top of the hook. *)
Record Inputs : Type := {
  grossIncome : float;
  period : string;
  hoursPerWeek : float;
  holidayAllowanceIncluded : bool;
  older : bool;
  ruling30Enabled : bool;
  ruling30Category : string;
  socialSecurity : bool
}.

Record Row : Type := {
  description : string;
  amount : float
}.

Record Details : Type := {
  inputIncome : float;
  inputPeriod : string;
  yearlyInputIncome : float;
  grossYear : float;
  grossMonth : float;
  grossWeek : float;
  grossDay : float;
  grossHour : float;
  grossAllowance : float;
  taxableYear : float;
  taxFree : float;
  payrollTax : float;
  socialTax : float;
  generalCredit : float;
  labourCredit : float;
  incomeTax : float;
  incomeTaxMonth : float;
  netYear : float;
  netMonth : float;
  netWeek : float;
  netDay : float;
  netHour : float;
  netAllowance : float
}.

(** [details = None] is [details: null]; [error = None] is a summary without
    an [error] key. *)
Record TaxSummary : Type := {
  taxableBase : float;
  estimatedTax : float;
  netIncome : float;
  breakdown : list Row;
  details : option Details;
  error : option value
}.

(** [const { grossIncome = 0, period = 'yearly', ... } = inputs ?? {}] *)
Definition prop_or {A : Type} (inputs : option Raw.Inputs)
  (prop : Raw.Inputs -> option A) (default : A) : A :=
  match inputs with
  | Some given =>
      match prop given with
      | Some a => a
      | None => default
      end
  | None => default
  end.

Definition destructure (inputs : option Raw.Inputs) : Inputs :=
  {| grossIncome := prop_or inputs Raw.grossIncome 0%float;
     period := prop_or inputs Raw.period "yearly";
     hoursPerWeek := prop_or inputs Raw.hoursPerWeek 40%float;
     holidayAllowanceIncluded := prop_or inputs Raw.holidayAllowanceIncluded true;
     older := prop_or inputs Raw.older false;
     ruling30Enabled := prop_or inputs Raw.ruling30Enabled false;
     ruling30Category := prop_or inputs Raw.ruling30Category "other";
     socialSecurity := prop_or inputs Raw.socialSecurity true |}.

(** [year = 2025] *)
Definition year_or_default (year : option float) : float :=
  match year with
  | Some y => y
  | None => 2025%float
  end.

(** The summary returned when there is no income. *)
Definition emptySummary : TaxSummary :=
  {| taxableBase := 0%float;
     estimatedTax := 0%float;
     netIncome := 0%float;
     breakdown := [];
     details := None;
     error := None |}.

(** ** The hook *)

(** [useMemo(factory, deps)] hands back what [factory] computes for the
    current dependencies; a render that reuses the cached value performs no
    event at all, so the events of [factory] bound those of any render. *)
Definition useMemo {A : Type} (factory : unit -> A) : A := factory tt.

Section Hook.

Local Open Scope eff_scope.

(** The package's constructor. *)
Variable SalaryPaycheck : Package.Constructor.

Definition new_SalaryPaycheck (args : Package.Args) : eff Package.Paycheck :=
  ([Constructed args], SalaryPaycheck args).

(** [paycheck.name ?? 0] *)
Definition read_or_zero (paycheck : Package.Paycheck) (name : string)
  : eff float :=
  match paycheck name with
  | Normal f => ret (nullish_or f 0%float)
  | Throw v => throw v
  end.

(** The arguments of the constructor call. *)
Definition paycheckArgs (i : Inputs) (year : float) : Package.Args :=
  let startFrom := or_string (get PERIOD_TO_START_FROM (period i)) "Year" in
  {| Package.salaryInput :=
       {| Package.income := Number (grossIncome i);
          Package.allowance := holidayAllowanceIncluded i;
          Package.socialSecurity := socialSecurity i;
          Package.older := older i;
          Package.hours := hoursPerWeek i |};
     Package.startFrom := startFrom;
     Package.year := year;
     Package.ruling :=
       {| Package.checked := ruling30Enabled i;
          Package.choice :=
            or_string (get rulingChoiceMap (ruling30Category i)) "normal" |} |}.

(** [const details = { ... }] *)
Definition readDetails (i : Inputs) (paycheck : Package.Paycheck)
  : eff Details :=
  let yearlyInputIncome :=
    convertToYearlyIncome (Number (grossIncome i)) (period i) (hoursPerWeek i) in
  grossYear <- read_or_zero paycheck "grossYear" ;;
  grossMonth <- read_or_zero paycheck "grossMonth" ;;
  grossWeek <- read_or_zero paycheck "grossWeek" ;;
  grossDay <- read_or_zero paycheck "grossDay" ;;
  grossHour <- read_or_zero paycheck "grossHour" ;;
  grossAllowance <- read_or_zero paycheck "grossAllowance" ;;
  taxableYear <- read_or_zero paycheck "taxableYear" ;;
  taxFree <- read_or_zero paycheck "taxFree" ;;
  payrollTax <- read_or_zero paycheck "payrollTax" ;;
  socialTax <- read_or_zero paycheck "socialTax" ;;
  generalCredit <- read_or_zero paycheck "generalCredit" ;;
  labourCredit <- read_or_zero paycheck "labourCredit" ;;
  incomeTax <- read_or_zero paycheck "incomeTax" ;;
  incomeTaxMonth <- read_or_zero paycheck "incomeTaxMonth" ;;
  netYear <- read_or_zero paycheck "netYear" ;;
  netMonth <- read_or_zero paycheck "netMonth" ;;
  netWeek <- read_or_zero paycheck "netWeek" ;;
  netDay <- read_or_zero paycheck "netDay" ;;
  netHour <- read_or_zero paycheck "netHour" ;;
  netAllowance <- read_or_zero paycheck "netAllowance" ;;
  ret {| inputIncome := Number (grossIncome i);
         inputPeriod := period i;
         yearlyInputIncome := yearlyInputIncome;
         grossYear := grossYear;
         grossMonth := grossMonth;
         grossWeek := grossWeek;
         grossDay := grossDay;
         grossHour := grossHour;
         grossAllowance := grossAllowance;
         taxableYear := taxableYear;
         taxFree := taxFree;
         payrollTax := payrollTax;
         socialTax := socialTax;
         generalCredit := generalCredit;
         labourCredit := labourCredit;
         incomeTax := incomeTax;
         incomeTaxMonth := incomeTaxMonth;
         netYear := netYear;
         netMonth := netMonth;
         netWeek := netWeek;
         netDay := netDay;
         netHour := netHour;
         netAllowance := netAllowance |}.

(** [...(condition ? [row] : [])] *)
Definition spread_if (condition : bool) (row : Row) : list Row :=
  if condition then [row] else [].

(** [const breakdown = [ ... ]] *)
Definition buildBreakdown (socialSecurity : bool) (details : Details)
  : list Row :=
  [ {| description := "Gross annual income"; amount := grossYear details |} ]
  ++ spread_if (0 <? grossAllowance details)%float
       {| description := "Holiday allowance (8%)";
          amount := grossAllowance details |}
  ++ spread_if (0 <? taxFree details)%float
       {| description := "30% ruling tax-free amount";
          amount := taxFree details |}
  ++ [ {| description := "Taxable income"; amount := taxableYear details |};
       {| description := "Payroll tax"; amount := payrollTax details |} ]
  ++ spread_if socialSecurity
       {| description := "Social security contributions";
          amount := socialTax details |}
  ++ [ {| description := "General tax credit"; amount := generalCredit details |};
       {| description := "Labour tax credit"; amount := labourCredit details |};
       {| description := "Total income tax"; amount := incomeTax details |};
       {| description := "Net annual income"; amount := netYear details |} ].

(** The body of the [try]. *)
Definition try_block (i : Inputs) (year : float) : eff TaxSummary :=
  paycheck <- new_SalaryPaycheck (paycheckArgs i year) ;;
  details <- readDetails i paycheck ;;
  let breakdown := buildBreakdown (socialSecurity i) details in
  ret {| taxableBase := taxableYear details;
         estimatedTax := abs (incomeTax details);
         netIncome := netYear details;
         breakdown := breakdown;
         details := Some details;
         error := None |}.

(** The body of the [catch]. *)
Definition catch_block (error : value) : eff TaxSummary :=
  emit (ConsoleError "[useBox1Calculator] Calculation error:" error) ;;;
  message <- ([], message_of error) ;;
  ret {| taxableBase := 0%float;
         estimatedTax := 0%float;
         netIncome := 0%float;
         breakdown := [];
         details := None;
         error := Some message |}.

(** The function handed to [useMemo]. *)
Definition calculate (i : Inputs) (year : float) : eff TaxSummary :=
  if falsy (grossIncome i) || (grossIncome i <=? 0)%float
  then ret emptySummary
  else try_catch (try_block i year) catch_block.

Definition useBox1Calculator (inputs : option Raw.Inputs)
  (year : option float) : eff TaxSummary :=
  let i := destructure inputs in
  let year := year_or_default year in
  useMemo (fun _ => calculate i year).

End Hook.

(** ** Sample packages and inputs *)

(** A result object whose properties are the entries of [table]; every other
    property is missing. *)
Definition objectOf (table : list (string * float)) : Package.Paycheck :=
  fun name =>
    match own_property table name with
    | Some x => Normal (FNum x)
    | None => Normal FUndefined
    end.

(** A package that answers every call with the same figures. *)
Definition reporting (table : list (string * float)) : Package.Constructor :=
  fun _ => Normal (objectOf table).

(** A package whose constructor throws [v]. *)
Definition throwing (v : value) : Package.Constructor :=
  fun _ => Throw v.

(** A package whose result has a getter [name] that throws [v]. *)
Definition brokenGetter (name : string) (v : value) : Package.Constructor :=
  fun _ => Normal (fun n => if String.eqb n name then Throw v
                            else Normal FUndefined).

(** Income 60000 a year, social security on, ruling off. *)
Definition sixtyThousand : Raw.Inputs :=
  {| Raw.grossIncome := Some 60000%float;
     Raw.period := Some "yearly";
     Raw.hoursPerWeek := None;
     Raw.holidayAllowanceIncluded := None;
     Raw.older := None;
     Raw.ruling30Enabled := Some false;
     Raw.ruling30Category := None;
     Raw.socialSecurity := Some true |}.

(** Figures in the shape the package reports them for that income. *)
Definition figures2025 : list (string * float) :=
  [ ("grossYear", 60000%float); ("grossMonth", 5000%float);
    ("grossAllowance", 4444.5%float); ("taxableYear", 55555.5%float);
    ("taxFree", 0%float); ("payrollTax", (-20000)%float);
    ("socialTax", (-5000)%float); ("generalCredit", 1500%float);
    ("labourCredit", 4000%float); ("incomeTax", (-14500)%float);
    ("netYear", 45500%float); ("netMonth", 3791.75%float) ].

(** The details the hook derives from [figures2025] for [sixtyThousand]. *)
Definition sampleDetails : Details :=
  {| inputIncome := 60000%float;
     inputPeriod := "yearly";
     yearlyInputIncome := 60000%float;
     grossYear := 60000%float;
     grossMonth := 5000%float;
     grossWeek := 0%float;
     grossDay := 0%float;
     grossHour := 0%float;
     grossAllowance := 4444.5%float;
     taxableYear := 55555.5%float;
     taxFree := 0%float;
     payrollTax := (-20000)%float;
     socialTax := (-5000)%float;
     generalCredit := 1500%float;
     labourCredit := 4000%float;
     incomeTax := (-14500)%float;
     incomeTaxMonth := 0%float;
     netYear := 45500%float;
     netMonth := 3791.75%float;
     netWeek := 0%float;
     netDay := 0%float;
     netHour := 0%float;
     netAllowance := 0%float |}.

(** The summary the hook returns in that case. *)
Definition sampleSummary : TaxSummary :=
  {| taxableBase := 55555.5%float;
     estimatedTax := 14500%float;
     netIncome := 45500%float;
     breakdown :=
       [ {| description := "Gross annual income"; amount := 60000%float |};
         {| description := "Holiday allowance (8%)"; amount := 4444.5%float |};
         {| description := "Taxable income"; amount := 55555.5%float |};
         {| description := "Payroll tax"; amount := (-20000)%float |};
         {| description := "Social security contributions";
            amount := (-5000)%float |};
         {| description := "General tax credit"; amount := 1500%float |};
         {| description := "Labour tax credit"; amount := 4000%float |};
         {| description := "Total income tax"; amount := (-14500)%float |};
         {| description := "Net annual income"; amount := 45500%float |} ];
     details := Some sampleDetails;
     error := None |}.

(** The constructor arguments the hook derives from [sixtyThousand]. *)
Definition sampleArgs : Package.Args :=
  {| Package.salaryInput :=
       {| Package.income := 60000%float;
          Package.allowance := true;
          Package.socialSecurity := true;
          Package.older := false;
          Package.hours := 40%float |};
     Package.startFrom := VStr "Year";
     Package.year := 2025%float;
     Package.ruling :=
       {| Package.checked := false; Package.choice := VStr "normal" |} |}.

(** Figures of a package whose tax computation produced [NaN]. *)
Definition undefinedTax : list (string * float) :=
  [ ("grossYear", 60000%float); ("incomeTax", nan); ("netYear", nan) ].

(** Inputs whose period and ruling category name a member of
    [Object.prototype]. *)
Definition inheritedKeys : Raw.Inputs :=
  {| Raw.grossIncome := Some 60000%float;
     Raw.period := Some "constructor";
     Raw.hoursPerWeek := None;
     Raw.holidayAllowanceIncluded := None;
     Raw.older := None;
     Raw.ruling30Enabled := Some true;
     Raw.ruling30Category := Some "toString";
     Raw.socialSecurity := None |}.

(** ** Vocabulary of the properties *)

(** The twenty numeric entries of [details] that come from the package, each
    with the property it is read from. *)
Definition NUMERIC_DETAILS : list (string * (Details -> float)) :=
  [ ("grossYear", grossYear); ("grossMonth", grossMonth);
    ("grossWeek", grossWeek); ("grossDay", grossDay);
    ("grossHour", grossHour); ("grossAllowance", grossAllowance);
    ("taxableYear", taxableYear); ("taxFree", taxFree);
    ("payrollTax", payrollTax); ("socialTax", socialTax);
    ("generalCredit", generalCredit); ("labourCredit", labourCredit);
    ("incomeTax", incomeTax); ("incomeTaxMonth", incomeTaxMonth);
    ("netYear", netYear); ("netMonth", netMonth); ("netWeek", netWeek);
    ("netDay", netDay); ("netHour", netHour);
    ("netAllowance", netAllowance) ].

(** Every numeric entry of [d] is the property of [paycheck] it is named
    after, or [0] where that property is [undefined] or [null]. *)
Definition reads_match (paycheck : Package.Paycheck) (d : Details) : Prop :=
  forall name proj, In (name, proj) NUMERIC_DETAILS ->
    exists f, paycheck name = Normal f /\ proj d = nullish_or f 0%float.

(** The package raises [v] while the hook uses it: from the constructor, or
    from a getter the hook reads. *)
Definition raises (SalaryPaycheck : Package.Constructor)
  (args : Package.Args) (v : value) : Prop :=
  SalaryPaycheck args = Throw v \/
  exists paycheck name,
    SalaryPaycheck args = Normal paycheck /\
    In name Package.FIELDS /\ paycheck name = Throw v.

(** The empty summary with an [error] key added. *)
Definition failed (message : value) : TaxSummary :=
  {| taxableBase := 0%float;
     estimatedTax := 0%float;
     netIncome := 0%float;
     breakdown := [];
     details := None;
     error := Some message |}.

(** A run that ends normally with the empty summary and an error string. *)
Definition absorbed (run : eff TaxSummary) : Prop :=
  exists message, snd run = Normal (failed (VStr message)).

(** The ten row labels, in display order. *)
Definition ROW_ORDER : list string :=
  [ "Gross annual income"; "Holiday allowance (8%)";
    "30% ruling tax-free amount"; "Taxable income"; "Payroll tax";
    "Social security contributions"; "General tax credit";
    "Labour tax credit"; "Total income tax"; "Net annual income" ].

(** The seven labels that carry no condition. *)
Definition UNCONDITIONAL : list string :=
  [ "Gross annual income"; "Taxable income"; "Payroll tax";
    "General tax credit"; "Labour tax credit"; "Total income tax";
    "Net annual income" ].

(** [xs] is [ys] with some elements left out, order kept. *)
Fixpoint subsequence (xs ys : list string) : bool :=
  match ys with
  | [] => match xs with [] => true | _ :: _ => false end
  | y :: ys' =>
      match xs with
      | [] => true
      | x :: xs' =>
          if String.eqb x y then subsequence xs' ys' else subsequence xs ys'
      end
  end.

Definition labels (rows : list Row) : list string := map description rows.

(** The amount of the first row labelled [label]. *)
Definition amount_of (label : string) (rows : list Row) : option float :=
  option_map amount
    (find (fun row => String.eqb (description row) label) rows).

(** The shapes a summary can take. *)
Inductive shaped (socialSecurity : bool) : TaxSummary -> Prop :=
| shaped_empty : shaped socialSecurity emptySummary
| shaped_failed message : shaped socialSecurity (failed message)
| shaped_computed d :
    shaped socialSecurity
      {| taxableBase := taxableYear d;
         estimatedTax := abs (incomeTax d);
         netIncome := netYear d;
         breakdown := buildBreakdown socialSecurity d;
         details := Some d;
         error := None |}.

(** ** Option lists of [box1Defaults.js] and views of a run *)

Module Options.
(** One entry of a select box of the form. *)
Record Choice : Type := {
  value : string;
  label : string
}.
End Options.

Definition INCOME_PERIODS : list Options.Choice :=
  [ {| Options.value := "yearly"; Options.label := "Yearly" |};
    {| Options.value := "monthly"; Options.label := "Monthly" |};
    {| Options.value := "weekly"; Options.label := "Weekly" |};
    {| Options.value := "daily"; Options.label := "Daily" |};
    {| Options.value := "hourly"; Options.label := "Hourly" |} ].

Definition RULING_30_CATEGORIES : list Options.Choice :=
  [ {| Options.value := "researchWorker";
       Options.label := "Scientific research" |};
    {| Options.value := "youngProfessional";
       Options.label := "Young employee with Master's" |};
    {| Options.value := "other"; Options.label := "Other" |} ].

(** The own keys of an object literal, in source order. *)
Definition keys {A : Type} (obj : list (string * A)) : list string :=
  map fst obj.

(** The constructor calls of a run, with their arguments. *)
Fixpoint constructions (log : list event) : list Package.Args :=
  match log with
  | [] => []
  | Constructed args :: rest => args :: constructions rest
  | ConsoleError _ _ :: rest => constructions rest
  end.

(** The values a run handed to [console.error]. *)
Fixpoint logged_errors (log : list event) : list value :=
  match log with
  | [] => []
  | Constructed _ :: rest => logged_errors rest
  | ConsoleError _ error :: rest => error :: logged_errors rest
  end.

(** The label of each row with the detail it displays. *)
Definition ROW_FIELDS : list (string * (Details -> float)) :=
  [ ("Gross annual income", grossYear);
    ("Holiday allowance (8%)", grossAllowance);
    ("30% ruling tax-free amount", taxFree);
    ("Taxable income", taxableYear);
    ("Payroll tax", payrollTax);
    ("Social security contributions", socialTax);
    ("General tax credit", generalCredit);
    ("Labour tax credit", labourCredit);
    ("Total income tax", incomeTax);
    ("Net annual income", netYear) ].

(** The number of conditional rows a computed breakdown carries. *)
Definition conditional_rows (socialSecurity : bool) (d : Details) : nat :=
  (if (0 <? grossAllowance d)%float then 1 else 0)
  + (if (0 <? taxFree d)%float then 1 else 0)
  + (if socialSecurity then 1 else 0).

(** Inputs that pay 25 per hour for 36 hours a week. *)
Definition hourlyWage : Raw.Inputs :=
  {| Raw.grossIncome := Some 25%float;
     Raw.period := Some "hourly";
     Raw.hoursPerWeek := Some 36%float;
     Raw.holidayAllowanceIncluded := Some false;
     Raw.older := None;
     Raw.ruling30Enabled := None;
     Raw.ruling30Category := None;
     Raw.socialSecurity := Some false |}.

(** Inputs with a period the form does not offer. *)
Definition fortnightly : Raw.Inputs :=
  {| Raw.grossIncome := Some 2500%float;
     Raw.period := Some "fortnightly";
     Raw.hoursPerWeek := None;
     Raw.holidayAllowanceIncluded := None;
     Raw.older := None;
     Raw.ruling30Enabled := None;
     Raw.ruling30Category := None;
     Raw.socialSecurity := None |}.

(** A package whose result has two throwing getters, [netYear] and
    [taxFree]; the hook reads [taxFree] first. *)
Definition twoBrokenGetters : Package.Constructor :=
  fun _ =>
    Normal (fun name =>
              if String.eqb name "netYear" then Throw (VError "no net year")
              else if String.eqb name "taxFree" then Throw (VStr "no ruling")
              else Normal (FNum 1%float)).



(** The package raises [v] first: from the constructor, or from the [k]-th
    property the hook reads after the reads before it succeeded. *)
Definition raises_first (SalaryPaycheck : Package.Constructor)
  (args : Package.Args) (v : value) : Prop :=
  SalaryPaycheck args = Throw v \/
  exists paycheck k,
    SalaryPaycheck args = Normal paycheck /\
    k < length Package.FIELDS /\
    (forall j, j < k ->
       exists f, paycheck (nth j Package.FIELDS "") = Normal f) /\
    paycheck (nth k Package.FIELDS "") = Throw v.

(** A package whose first getter throws an [Error] and whose [netYear]
    getter, read later, would throw [undefined]. *)
Definition errorThenUndefined : Package.Constructor :=
  fun _ =>
    Normal (fun name =>
              if String.eqb name "grossYear" then Throw (VError "no gross year")
              else if String.eqb name "netYear" then Throw VUndefined
              else Normal FUndefined).

(** ** Facts about numbers *)

Section Numbers.

Local Open Scope float_scope.

(** A number above zero is neither [0], nor [NaN], nor [<= 0]: it passes
    the guard [!x || x <= 0]. *)
Lemma positive_passes_guard (x : float) :
  (0 <? x) = true -> falsy x || (x <=? 0) = false.
Proof.
  unfold falsy, is_nan.
  rewrite FloatAxioms.ltb_spec, FloatAxioms.leb_spec, !FloatAxioms.eqb_spec.
  change (Prim2SF 0) with (S754_zero false).
  destruct (Prim2SF x) as [s | s | | s m e]; try destruct s;
    cbn; try discriminate; intros _.
  - reflexivity.
  - unfold SFeqb, SFleb, SFcompare; cbn.
    now rewrite Z.compare_refl, Pos.compare_refl.
Qed.

(** Conversely the guard lets nothing else through. *)
Lemma guard_passed_positive (x : float) :
  falsy x || (x <=? 0) = false -> (0 <? x) = true.
Proof.
  unfold falsy, is_nan.
  rewrite FloatAxioms.ltb_spec, FloatAxioms.leb_spec, !FloatAxioms.eqb_spec.
  change (Prim2SF 0) with (S754_zero false).
  destruct (Prim2SF x) as [s | s | | s m e]; try destruct s;
    cbn; try discriminate; try reflexivity.
  rewrite orb_true_r. discriminate.
Qed.

(** [Math.abs] never yields a number below zero. *)
Lemma abs_not_negative (x : float) : (abs x <? 0) = false.
Proof.
  rewrite FloatAxioms.ltb_spec, FloatAxioms.abs_spec.
  change (Prim2SF 0) with (S754_zero false).
  destruct (Prim2SF x) as [s | s | | s m e]; reflexivity.
Qed.

(** Unless its argument is [NaN], [Math.abs] yields a number [>= 0]. *)
Lemma abs_nonnegative (x : float) :
  is_nan x = false -> (0 <=? abs x) = true.
Proof.
  unfold is_nan.
  rewrite FloatAxioms.leb_spec, FloatAxioms.eqb_spec, FloatAxioms.abs_spec.
  change (Prim2SF 0) with (S754_zero false).
  destruct (Prim2SF x) as [s | s | | s m e]; try reflexivity.
  cbn. discriminate.
Qed.

End Numbers.

(** ** How the hook runs *)

Ltac in_list := simpl; repeat (first [left; reflexivity | right]).

Section Runs.

Variable SalaryPaycheck : Package.Constructor.

(** Reading the details either succeeds with every entry in place, or stops
    at the first getter that throws. *)
Lemma readDetails_cases (i : Inputs) (paycheck : Package.Paycheck) :
  (exists d, readDetails i paycheck = ([], Normal d) /\ reads_match paycheck d)
  \/ (exists name v, In name Package.FIELDS /\ paycheck name = Throw v /\
                     readDetails i paycheck = ([], Throw v)).
Proof.
  unfold readDetails, read_or_zero.
  repeat match goal with
  | |- context [match paycheck ?name with _ => _ end] =>
      destruct (paycheck name) eqn:?;
      [ | right; exists name; eexists;
          split; [in_list | split; [eassumption | reflexivity]] ]
  end.
  left. eexists. split; [reflexivity |].
  intros name proj Hin. simpl in Hin.
  repeat destruct Hin as [Hin | Hin]; try contradiction;
    inversion Hin; subst; eexists; split; try eassumption; reflexivity.
Qed.

(** The [try] body calls the constructor once, and then either returns the
    computed summary or throws what the package raised. *)
Lemma try_block_cases (i : Inputs) (year : float) :
  (exists paycheck d,
      SalaryPaycheck (paycheckArgs i year) = Normal paycheck /\
      reads_match paycheck d /\
      try_block SalaryPaycheck i year =
        ([Constructed (paycheckArgs i year)],
         Normal {| taxableBase := taxableYear d;
                   estimatedTax := abs (incomeTax d);
                   netIncome := netYear d;
                   breakdown := buildBreakdown (socialSecurity i) d;
                   details := Some d;
                   error := None |}))
  \/ (exists v,
        raises SalaryPaycheck (paycheckArgs i year) v /\
        try_block SalaryPaycheck i year =
          ([Constructed (paycheckArgs i year)], Throw v)).
Proof.
  unfold try_block, new_SalaryPaycheck, raises.
  destruct (SalaryPaycheck (paycheckArgs i year)) as [paycheck | v] eqn:Hnew.
  - destruct (readDetails_cases i paycheck)
      as [(d & Hread & Hmatch) | (name & v & Hin & Hget & Hread)].
    + left. exists paycheck, d. repeat split; trivial.
      cbn [bind]. rewrite Hread. reflexivity.
    + right. exists v. split.
      * right. exists paycheck, name. auto.
      * cbn [bind]. rewrite Hread. reflexivity.
  - right. exists v. split; [now left | reflexivity].
Qed.

(** The handler logs the caught value and then reads its [message]. *)
Lemma catch_block_run (error : value) :
  catch_block error =
    ([ConsoleError "[useBox1Calculator] Calculation error:" error],
     match message_of error with
     | Normal message => Normal (failed message)
     | Throw v => Throw v
     end).
Proof. unfold catch_block. destruct error; reflexivity. Qed.

(** Every summary the memoised function returns has one of three shapes. *)
Lemma calculate_shaped (i : Inputs) (year : float) log s :
  calculate SalaryPaycheck i year = (log, Normal s) ->
  shaped (socialSecurity i) s.
Proof.
  unfold calculate.
  destruct (falsy (grossIncome i) || (grossIncome i <=? 0)%float).
  - intros [= _ <-]. constructor.
  - destruct (try_block_cases i year)
      as [(paycheck & d & _ & _ & ->) | (v & _ & ->)]; cbn [try_catch].
    + intros [= _ <-]. constructor.
    + rewrite catch_block_run.
      destruct (message_of v); intros [= _ <-]. constructor.
Qed.

(** A summary with details is the computed one, built from those details. *)
Lemma calculate_computed (i : Inputs) (year : float) log s d :
  calculate SalaryPaycheck i year = (log, Normal s) ->
  details s = Some d ->
  s = {| taxableBase := taxableYear d;
         estimatedTax := abs (incomeTax d);
         netIncome := netYear d;
         breakdown := buildBreakdown (socialSecurity i) d;
         details := Some d;
         error := None |}.
Proof.
  intros Hrun Hd. destruct (calculate_shaped _ _ _ _ Hrun); try discriminate.
  cbn in Hd. now injection Hd as ->.
Qed.

End Runs.

(** ** Properties of the input normaliser *)

(** C3.  For an income [i > 0] the normaliser returns [i * 1] for a yearly,
    [i * 12] for a monthly, [i * 52] for a weekly and [i * 260] for a daily
    amount, and [i * h * 52] for an hourly one; for an income that is falsy
    or not above zero it returns [0], whatever the period and the hours. *)
Theorem convertToYearlyIncome_table (i h : float) :
  ((0 <? i)%float = true ->
     convertToYearlyIncome i "yearly" h = (i * 1)%float /\
     convertToYearlyIncome i "monthly" h = (i * 12)%float /\
     convertToYearlyIncome i "weekly" h = (i * 52)%float /\
     convertToYearlyIncome i "daily" h = (i * 260)%float /\
     convertToYearlyIncome i "hourly" h = (i * h * 52)%float)
  /\
  (falsy i = true \/ (i <=? 0)%float = true ->
     forall period, convertToYearlyIncome i period h = 0%float).
Proof.
  split.
  - intros Hpos. unfold convertToYearlyIncome.
    rewrite (positive_passes_guard i Hpos). repeat split.
  - intros Hguard period. unfold convertToYearlyIncome.
    destruct Hguard as [-> | ->]; [reflexivity | now rewrite orb_true_r].
Qed.

Lemma convertToYearlyIncome_table_witness :
  (0 <? 2500)%float = true /\
  convertToYearlyIncome 2500 "monthly" 40 = 30000%float /\
  convertToYearlyIncome 25 "hourly" 36 = 46800%float /\
  ((-3) <=? 0)%float = true /\
  convertToYearlyIncome (-3) "weekly" 40 = 0%float.
Proof.
  split; [reflexivity |].
  split.
  { destruct (convertToYearlyIncome_table 2500 40) as [Htable _].
    destruct (Htable eq_refl) as (_ & Hmonthly & _). exact Hmonthly. }
  split.
  { destruct (convertToYearlyIncome_table 25 36) as [Htable _].
    destruct (Htable eq_refl) as (_ & _ & _ & _ & Hhourly). exact Hhourly. }
  split; [reflexivity |].
  destruct (convertToYearlyIncome_table (-3) 40) as [_ Hzero].
  exact (Hzero (or_intror eq_refl) "weekly").
Defined.

(** A period outside the table is not an error: the product is [NaN]. *)
Example convertToYearlyIncome_unknown_period :
  is_nan (convertToYearlyIncome 2500 "fortnightly" 40) = true.
Proof. reflexivity. Qed.

(** ** The short circuit *)

(** C2.  When [grossIncome] is falsy or not above zero the hook returns the
    fixed empty summary (zero figures, no rows, [details: null]) and the
    package is not called: the run performs no event. *)
Theorem no_income_short_circuits (SalaryPaycheck : Package.Constructor)
  (inputs : option Raw.Inputs) (year : option float) :
  falsy (grossIncome (destructure inputs)) = true \/
  (grossIncome (destructure inputs) <=? 0)%float = true ->
  useBox1Calculator SalaryPaycheck inputs year =
    ([], Normal {| taxableBase := 0%float;
                   estimatedTax := 0%float;
                   netIncome := 0%float;
                   breakdown := [];
                   details := None;
                   error := None |}).
Proof.
  intros Hguard. unfold useBox1Calculator, useMemo, calculate.
  destruct Hguard as [-> | ->]; [reflexivity | now rewrite orb_true_r].
Qed.

Lemma no_income_short_circuits_witness :
  falsy (grossIncome (destructure None)) = true /\
  useBox1Calculator (throwing VNull) None None = ([], Normal emptySummary).
Proof.
  split; [reflexivity |].
  exact (no_income_short_circuits (throwing VNull) None None
           (or_introl eq_refl)).
Defined.

(** ** Failures of the package *)

Example sample_run :
  useBox1Calculator (reporting figures2025) (Some sixtyThousand) None =
    ([Constructed sampleArgs], Normal sampleSummary).
Proof. reflexivity. Qed.

(** The properties the hook reads are those the numeric details are named
    after. *)
Lemma numeric_details_fields : map fst NUMERIC_DETAILS = Package.FIELDS.
Proof. reflexivity. Qed.

(** When every read succeeded, no getter the hook uses throws. *)
Lemma reads_match_no_throw (paycheck : Package.Paycheck) (d : Details)
  (name : string) (v : value) :
  reads_match paycheck d -> In name Package.FIELDS -> paycheck name <> Throw v.
Proof.
  intros Hmatch Hin Hthrow. rewrite <- numeric_details_fields in Hin.
  apply in_map_iff in Hin as ((name' & proj) & Hname & Hin).
  cbn in Hname; subst name'.
  destruct (Hmatch name proj Hin) as (f & Hget & _). congruence.
Qed.

(** A getter that throws an [Error] is absorbed in the same way. *)
Example broken_getter_absorbed :
  useBox1Calculator (brokenGetter "taxFree" (VError "no ruling data"))
    (Some sixtyThousand) None =
    ([ Constructed sampleArgs;
       ConsoleError "[useBox1Calculator] Calculation error:"
         (VError "no ruling data") ],
     Normal (failed (VStr "no ruling data"))).
Proof. reflexivity. Qed.

(** C1.  The handler is meant to absorb whatever the package raises, but it
    reads [error.message] on the caught value.  With income 60000 and a
    constructor that throws [undefined], that read raises a [TypeError]
    inside the handler: the hook does not return the empty summary with an
    error string, the exception leaves it. *)
Theorem thrown_undefined_escapes :
  (0 <? grossIncome (destructure (Some sixtyThousand)))%float = true /\
  raises (throwing VUndefined) sampleArgs VUndefined /\
  snd (useBox1Calculator (throwing VUndefined) (Some sixtyThousand) None) =
    Throw (VError "Cannot read properties of undefined (reading 'message')") /\
  ~ absorbed (useBox1Calculator (throwing VUndefined) (Some sixtyThousand) None).
Proof.
  split; [reflexivity |].
  split; [left; reflexivity |].
  split; [reflexivity |].
  intros [message Habs]. discriminate Habs.
Qed.

(** When it throws a string, the summary's [error] is [undefined]. *)
Example thrown_string_has_no_message :
  snd (useBox1Calculator (throwing (VStr "bad year")) (Some sixtyThousand) None)
    = Normal (failed VUndefined) /\
  ~ absorbed (useBox1Calculator (throwing (VStr "bad year"))
                (Some sixtyThousand) None).
Proof.
  split; [reflexivity |].
  intros [message Habs]. discriminate Habs.
Qed.

(** ** The computed summary *)

Lemma in_existsb (l : string) (ls : list string) :
  In l ls <-> existsb (String.eqb l) ls = true.
Proof.
  rewrite existsb_exists. split.
  - intros Hin. exists l. split; [exact Hin | apply String.eqb_refl].
  - intros (l' & Hin & Heq). apply String.eqb_eq in Heq. now subst.
Qed.

(** The seven unconditional rows are always there. *)
Lemma buildBreakdown_length (socialSecurity : bool) (d : Details) :
  7 <= length (buildBreakdown socialSecurity d) <= 10.
Proof.
  unfold buildBreakdown, spread_if.
  destruct (0 <? grossAllowance d)%float, (0 <? taxFree d)%float,
    socialSecurity; cbn; lia.
Qed.


(** C5.  With [grossIncome > 0] and a constructed object, each of the twenty
    numeric details is the object's property of that name, and [0] when that
    property is missing; the hook still returns the computed summary, with
    its details, its figures and at least the seven unconditional rows,
    whichever properties are missing. *)
Theorem missing_fields_default_to_zero (SalaryPaycheck : Package.Constructor)
  (inputs : option Raw.Inputs) (year : option float)
  (paycheck : Package.Paycheck) :
  (0 <? grossIncome (destructure inputs))%float = true ->
  SalaryPaycheck (paycheckArgs (destructure inputs) (year_or_default year)) =
    Normal paycheck ->
  (forall name, In name Package.FIELDS -> exists f, paycheck name = Normal f) ->
  exists d,
    useBox1Calculator SalaryPaycheck inputs year =
      ([Constructed (paycheckArgs (destructure inputs) (year_or_default year))],
       Normal {| taxableBase := taxableYear d;
                 estimatedTax := abs (incomeTax d);
                 netIncome := netYear d;
                 breakdown :=
                   buildBreakdown (socialSecurity (destructure inputs)) d;
                 details := Some d;
                 error := None |}) /\
    (forall name proj, In (name, proj) NUMERIC_DETAILS ->
       (paycheck name = Normal FUndefined -> proj d = 0%float) /\
       (forall f, paycheck name = Normal f -> proj d = nullish_or f 0%float)) /\
    7 <= length (buildBreakdown (socialSecurity (destructure inputs)) d).
Proof.
  intros Hpos Hnew Hreads.
  unfold useBox1Calculator, useMemo, calculate.
  rewrite (positive_passes_guard _ Hpos).
  destruct (try_block_cases SalaryPaycheck (destructure inputs)
              (year_or_default year))
    as [(p & d & Hp & Hmatch & ->) | (v & Hv & _)].
  - assert (p = paycheck) as -> by congruence.
    exists d. split; [reflexivity |]. split.
    + intros name proj Hin. destruct (Hmatch name proj Hin) as (f & Hget & ->).
      split.
      * intros Hmissing. rewrite Hmissing in Hget. now injection Hget as <-.
      * intros f' Hf'. rewrite Hf' in Hget. now injection Hget as <-.
    + apply buildBreakdown_length.
  - exfalso. destruct Hv as [Hthrow | (p & name & Hp & Hin & Hget)].
    + congruence.
    + assert (p = paycheck) as -> by congruence.
      destruct (Hreads name Hin) as [f Hf]. congruence.
Qed.

Lemma missing_fields_default_to_zero_witness :
  (0 <? grossIncome (destructure (Some sixtyThousand)))%float = true /\
  objectOf figures2025 "netWeek" = Normal FUndefined /\
  exists d,
    useBox1Calculator (reporting figures2025) (Some sixtyThousand) None =
      ([Constructed sampleArgs],
       Normal {| taxableBase := taxableYear d;
                 estimatedTax := abs (incomeTax d);
                 netIncome := netYear d;
                 breakdown := buildBreakdown true d;
                 details := Some d;
                 error := None |}) /\
    netWeek d = 0%float /\ netYear d = 45500%float.
Proof.
  split; [reflexivity |].
  split; [reflexivity |].
  destruct (missing_fields_default_to_zero (reporting figures2025)
              (Some sixtyThousand) None (objectOf figures2025))
    as (d & Hrun & Hfields & _).
  - reflexivity.
  - reflexivity.
  - intros name _. unfold objectOf.
    destruct (own_property figures2025 name); eauto.
  - exists d. split; [exact Hrun |]. split.
    + apply (Hfields "netWeek" netWeek); [in_list | reflexivity].
    + apply (proj2 (Hfields "netYear" netYear ltac:(in_list)) (FNum 45500)).
      reflexivity.
Defined.

(** C4.  In a computed summary the rows keep the display order, the seven
    unconditional rows are present, and the three conditional rows are
    present exactly under their conditions: holiday allowance iff
    [grossAllowance > 0], the 30% ruling amount iff [taxFree > 0], social
    security contributions iff the [socialSecurity] input is true. *)
Theorem breakdown_rows (SalaryPaycheck : Package.Constructor)
  (inputs : option Raw.Inputs) (year : option float) log s d :
  useBox1Calculator SalaryPaycheck inputs year = (log, Normal s) ->
  details s = Some d ->
  subsequence (labels (breakdown s)) ROW_ORDER = true /\
  (forall l, In l UNCONDITIONAL -> In l (labels (breakdown s))) /\
  (In "Holiday allowance (8%)" (labels (breakdown s)) <->
     (0 <? grossAllowance d)%float = true) /\
  (In "30% ruling tax-free amount" (labels (breakdown s)) <->
     (0 <? taxFree d)%float = true) /\
  (In "Social security contributions" (labels (breakdown s)) <->
     socialSecurity (destructure inputs) = true).
Proof.
  intros Hrun Hd.
  rewrite (calculate_computed _ _ _ _ _ _ Hrun Hd). cbn [breakdown].
  rewrite !in_existsb.
  assert (forall l, In l UNCONDITIONAL ->
            existsb (String.eqb l)
              (labels (buildBreakdown (socialSecurity (destructure inputs)) d))
            = true) as Hall.
  { intros l Hl. simpl in Hl.
    unfold buildBreakdown, spread_if.
    destruct (0 <? grossAllowance d)%float, (0 <? taxFree d)%float,
      (socialSecurity (destructure inputs));
      repeat destruct Hl as [<- | Hl]; try contradiction; reflexivity. }
  split; [| split].
  - unfold buildBreakdown, spread_if.
    destruct (0 <? grossAllowance d)%float, (0 <? taxFree d)%float,
      (socialSecurity (destructure inputs)); reflexivity.
  - intros l Hl. apply in_existsb. auto.
  - unfold buildBreakdown, spread_if.
    destruct (0 <? grossAllowance d)%float, (0 <? taxFree d)%float,
      (socialSecurity (destructure inputs)); cbn; intuition congruence.
Qed.

Lemma breakdown_rows_witness :
  useBox1Calculator (reporting figures2025) (Some sixtyThousand) None =
    ([Constructed sampleArgs], Normal sampleSummary) /\
  details sampleSummary = Some sampleDetails /\
  (In "Holiday allowance (8%)" (labels (breakdown sampleSummary)) <->
     (0 <? grossAllowance sampleDetails)%float = true) /\
  (In "Social security contributions" (labels (breakdown sampleSummary)) <->
     socialSecurity (destructure (Some sixtyThousand)) = true).
Proof.
  split; [reflexivity |].
  split; [reflexivity |].
  destruct (breakdown_rows (reporting figures2025) (Some sixtyThousand) None
              [Constructed sampleArgs] sampleSummary sampleDetails
              eq_refl eq_refl)
    as (_ & _ & Hholiday & _ & Hsocial).
  split; assumption.
Defined.



(** ** Invariants of every returned summary *)

(** C8 (as amended).  In every summary the hook returns, [estimatedTax] is
    never below zero: in a computed summary it is [Math.abs] of the
    [incomeTax] detail, which is [>= 0] unless [incomeTax] is [NaN] (then it
    is [NaN]); without income and after a caught error it is [0]. *)
Theorem estimatedTax_never_negative (SalaryPaycheck : Package.Constructor)
  (inputs : option Raw.Inputs) (year : option float) log s :
  useBox1Calculator SalaryPaycheck inputs year = (log, Normal s) ->
  (estimatedTax s <? 0)%float = false /\
  (forall d, details s = Some d ->
     estimatedTax s = abs (incomeTax d) /\
     (is_nan (incomeTax d) = false -> (0 <=? estimatedTax s)%float = true)) /\
  (details s = None -> estimatedTax s = 0%float).
Proof.
  intros Hrun. apply calculate_shaped in Hrun.
  destruct Hrun as [ | message | d ]; cbn.
  - split; [reflexivity |]. split; [discriminate | reflexivity].
  - split; [reflexivity |]. split; [discriminate | reflexivity].
  - split; [apply abs_not_negative |]. split; [| discriminate].
    intros d' [= <-]. split; [reflexivity | apply abs_nonnegative].
Qed.

Lemma estimatedTax_never_negative_witness :
  useBox1Calculator (reporting figures2025) (Some sixtyThousand) None =
    ([Constructed sampleArgs], Normal sampleSummary) /\
  (estimatedTax sampleSummary <? 0)%float = false /\
  estimatedTax sampleSummary = abs (incomeTax sampleDetails).
Proof.
  split; [reflexivity |].
  destruct (estimatedTax_never_negative (reporting figures2025)
              (Some sixtyThousand) None [Constructed sampleArgs] sampleSummary
              eq_refl)
    as (Hsign & Hcomputed & _).
  split; [exact Hsign |].
  exact (proj1 (Hcomputed sampleDetails eq_refl)).
Defined.

(** [Math.abs(NaN)] is [NaN], and [NaN >= 0] is false: when the package
    reports [NaN] as income tax, [estimatedTax] is not a non-negative
    number. *)
Lemma estimatedTax_can_be_NaN :
  exists s,
    useBox1Calculator (reporting undefinedTax) (Some sixtyThousand) None =
      ([Constructed sampleArgs], Normal s) /\
    details s <> None /\
    is_nan (estimatedTax s) = true /\
    (0 <=? estimatedTax s)%float = false.
Proof.
  eexists. split; [reflexivity |]. cbn.
  split; [discriminate |]. split; reflexivity.
Qed.

(** C9.  In every summary the hook returns, [details] is [null] exactly when
    the breakdown is empty.  Without income, and when the package raised,
    the summary has neither details nor rows; when the constructor returned
    an object whose reads succeed, the summary has details and at least the
    seven unconditional rows. *)
Theorem details_null_iff_no_rows (SalaryPaycheck : Package.Constructor)
  (inputs : option Raw.Inputs) (year : option float) log s :
  useBox1Calculator SalaryPaycheck inputs year = (log, Normal s) ->
  (details s = None <-> breakdown s = []) /\
  (details s <> None -> 7 <= length (breakdown s)) /\
  (error s <> None -> details s = None) /\
  (falsy (grossIncome (destructure inputs))
   || (grossIncome (destructure inputs) <=? 0)%float = true ->
   details s = None) /\
  ((0 <? grossIncome (destructure inputs))%float = true ->
   (exists v,
       raises SalaryPaycheck
         (paycheckArgs (destructure inputs) (year_or_default year)) v) ->
   details s = None /\ error s <> None) /\
  ((0 <? grossIncome (destructure inputs))%float = true ->
   forall paycheck,
     SalaryPaycheck (paycheckArgs (destructure inputs) (year_or_default year)) =
       Normal paycheck ->
     (forall name, In name Package.FIELDS ->
        exists f, paycheck name = Normal f) ->
     details s <> None /\ 7 <= length (breakdown s)).
Proof.
  intros Hrun.
  assert (forall v paycheck,
            raises SalaryPaycheck
              (paycheckArgs (destructure inputs) (year_or_default year)) v ->
            SalaryPaycheck
              (paycheckArgs (destructure inputs) (year_or_default year)) =
              Normal paycheck ->
            exists name, In name Package.FIELDS /\ paycheck name = Throw v)
    as Hgetter.
  { intros v paycheck [Hthrow | (p & name & Hp & Hin & Hget)] Hnew.
    - congruence.
    - assert (p = paycheck) as -> by congruence. eauto. }
  split; [| split; [| split; [| split; [| split]]]].
  - apply calculate_shaped in Hrun.
    destruct Hrun as [ | message | d ]; cbn; [tauto | tauto |].
    pose proof (buildBreakdown_length
                  (socialSecurity (destructure inputs)) d) as Hlen.
    split; [discriminate |].
    destruct (buildBreakdown _ d); [cbn in Hlen; lia | discriminate].
  - apply calculate_shaped in Hrun.
    destruct Hrun as [ | message | d ]; cbn; try congruence.
    intros _. apply buildBreakdown_length.
  - apply calculate_shaped in Hrun.
    destruct Hrun; cbn; congruence.
  - intros Hguard. unfold useBox1Calculator, useMemo, calculate in Hrun.
    rewrite Hguard in Hrun. now injection Hrun as _ <-.
  - intros Hpos [v Hraised].
    unfold useBox1Calculator, useMemo, calculate in Hrun.
    rewrite (positive_passes_guard _ Hpos) in Hrun.
    destruct (try_block_cases SalaryPaycheck (destructure inputs)
                (year_or_default year))
      as [(paycheck & d & Hnew & Hmatch & Htry) | (v' & _ & Htry)];
      rewrite Htry in Hrun; cbn [try_catch] in Hrun.
    + exfalso. destruct (Hgetter v paycheck Hraised Hnew) as (name & Hin & Hget).
      exact (reads_match_no_throw _ _ _ _ Hmatch Hin Hget).
    + rewrite catch_block_run in Hrun.
      destruct (message_of v'); [| discriminate].
      injection Hrun as _ <-. cbn. split; [reflexivity | discriminate].
  - intros Hpos paycheck Hnew Hreads.
    unfold useBox1Calculator, useMemo, calculate in Hrun.
    rewrite (positive_passes_guard _ Hpos) in Hrun.
    destruct (try_block_cases SalaryPaycheck (destructure inputs)
                (year_or_default year))
      as [(p & d & _ & _ & Htry) | (v & Hraised & _)].
    + rewrite Htry in Hrun. cbn [try_catch] in Hrun.
      injection Hrun as _ <-. cbn.
      split; [discriminate | apply buildBreakdown_length].
    + exfalso. destruct (Hgetter v paycheck Hraised Hnew) as (name & Hin & Hget).
      destruct (Hreads name Hin) as [f Hf]. congruence.
Qed.

Lemma details_null_iff_no_rows_witness :
  useBox1Calculator (reporting figures2025) (Some sixtyThousand) None =
    ([Constructed sampleArgs], Normal sampleSummary) /\
  (0 <? grossIncome (destructure (Some sixtyThousand)))%float = true /\
  details sampleSummary <> None /\
  7 <= length (breakdown sampleSummary).
Proof.
  split; [reflexivity |]. split; [reflexivity |].
  refine (proj2 (proj2 (proj2 (proj2 (proj2
            (details_null_iff_no_rows (reporting figures2025)
               (Some sixtyThousand) None _ _ eq_refl)))))
            eq_refl (objectOf figures2025) eq_refl _).
  intros name _. unfold objectOf.
  destruct (own_property figures2025 name); eauto.
Defined.

(** After a raise the same invariant holds on the error summary. *)
Example error_summary_has_no_rows :
  useBox1Calculator (throwing (VError "Unsupported year"))
    (Some sixtyThousand) None =
    ([ Constructed sampleArgs;
       ConsoleError "[useBox1Calculator] Calculation error:"
         (VError "Unsupported year") ],
     Normal (failed (VStr "Unsupported year"))) /\
  details (failed (VStr "Unsupported year")) = None /\
  breakdown (failed (VStr "Unsupported year")) = [].
Proof. repeat split. Qed.

(** C10.  In a computed summary the top-level figures agree with the rows:
    [taxableBase] is the amount of the "Taxable income" row and [netIncome]
    the amount of the "Net annual income" row, both being the details
    [taxableYear] and [netYear]. *)
Theorem figures_match_rows (SalaryPaycheck : Package.Constructor)
  (inputs : option Raw.Inputs) (year : option float) log s d :
  useBox1Calculator SalaryPaycheck inputs year = (log, Normal s) ->
  details s = Some d ->
  amount_of "Taxable income" (breakdown s) = Some (taxableBase s) /\
  amount_of "Net annual income" (breakdown s) = Some (netIncome s) /\
  taxableBase s = taxableYear d /\
  netIncome s = netYear d.
Proof.
  intros Hrun Hd.
  rewrite (calculate_computed _ _ _ _ _ _ Hrun Hd).
  cbn [breakdown taxableBase netIncome].
  unfold amount_of, buildBreakdown, spread_if.
  destruct (0 <? grossAllowance d)%float, (0 <? taxFree d)%float,
    (socialSecurity (destructure inputs)); repeat split.
Qed.

Lemma figures_match_rows_witness :
  useBox1Calculator (reporting figures2025) (Some sixtyThousand) None =
    ([Constructed sampleArgs], Normal sampleSummary) /\
  details sampleSummary = Some sampleDetails /\
  amount_of "Taxable income" (breakdown sampleSummary) = Some 55555.5%float /\
  amount_of "Net annual income" (breakdown sampleSummary) = Some 45500%float.
Proof.
  split; [reflexivity |].
  split; [reflexivity |].
  destruct (figures_match_rows (reporting figures2025) (Some sixtyThousand) None
              [Constructed sampleArgs] sampleSummary sampleDetails
              eq_refl eq_refl)
    as (Htaxable & Hnet & _).
  split; assumption.
Defined.

(** ** The two translations *)

(** The five periods and the three categories are translated by the tables. *)
Example mapped_keys_translate :
  map (fun key => or_string (get PERIOD_TO_START_FROM key) "Year")
    ["yearly"; "monthly"; "weekly"; "daily"; "hourly"] =
    [VStr "Year"; VStr "Month"; VStr "Week"; VStr "Day"; VStr "Hour"] /\
  map (fun key => or_string (get rulingChoiceMap key) "normal")
    ["researchWorker"; "youngProfessional"; "other"] =
    [VStr "research"; VStr "young"; VStr "normal"].
Proof. split; reflexivity. Qed.

(** A key found neither in the table nor on [Object.prototype] takes the
    fallback. *)
Lemma fallback_for_unknown_key (obj : list (string * string))
  (key fallback : string) :
  own_property obj key = None -> inherited key = false ->
  or_string (get obj key) fallback = VStr fallback.
Proof. intros Hown Hinh. unfold get. now rewrite Hown, Hinh. Qed.

(** C6.  The period "constructor" and the category "toString" are not among
    the mapped values, yet the hook passes neither 'Year' nor 'normal' to
    the package: the lookup finds the members every object inherits, which
    are truthy, so the [||] fallback is skipped. *)
Theorem inherited_key_skips_fallback :
  own_property PERIOD_TO_START_FROM "constructor" = None /\
  own_property rulingChoiceMap "toString" = None /\
  Package.startFrom
    (paycheckArgs (destructure (Some inheritedKeys)) (year_or_default None)) =
    VNative "constructor" /\
  Package.choice
    (Package.ruling
       (paycheckArgs (destructure (Some inheritedKeys)) (year_or_default None))) =
    VNative "toString".
Proof. repeat split. Qed.

(** ** Further facts about numbers and lookups *)

(** The income guard [!x || x <= 0] is the negation of [x > 0]. *)
Lemma guard_is_not_positive (x : float) :
  falsy x || (x <=? 0)%float = negb (0 <? x)%float.
Proof.
  destruct (0 <? x)%float eqn:Hpos.
  - now rewrite (positive_passes_guard x Hpos).
  - destruct (falsy x || (x <=? 0)%float) eqn:Hguard; [reflexivity |].
    apply guard_passed_positive in Hguard. congruence.
Qed.

(** A product with [NaN] is [NaN]. *)
Lemma mul_NaN (x : float) : is_nan (x * NaN)%float = true.
Proof.
  unfold is_nan. rewrite FloatAxioms.eqb_spec, FloatAxioms.mul_spec.
  change (Prim2SF NaN) with S754_nan.
  destruct (Prim2SF x); reflexivity.
Qed.

(** An own property is found exactly under the own keys. *)
Lemma own_property_keys {A : Type} (obj : list (string * A)) (key : string) :
  In key (keys obj) <-> own_property obj key <> None.
Proof.
  induction obj as [| [k a] rest IH]; cbn.
  - split; [contradiction | congruence].
  - destruct (String.eqb k key) eqn:Heq.
    + apply String.eqb_eq in Heq. split; [discriminate | auto].
    + apply String.eqb_neq in Heq. rewrite <- IH. tauto.
Qed.

(** An own property comes from an entry of the literal. *)
Lemma own_property_in {A : Type} (obj : list (string * A)) (key : string)
  (a : A) :
  own_property obj key = Some a -> In (key, a) obj.
Proof.
  induction obj as [| [k a'] rest IH]; cbn; [discriminate |].
  destruct (String.eqb k key) eqn:Heq.
  - apply String.eqb_eq in Heq. intros [= <-]. left. now subst.
  - auto.
Qed.

(** ** The three ways a run can go *)

(** The details echo the destructured inputs. *)
Lemma readDetails_echo (i : Inputs) (paycheck : Package.Paycheck) log d :
  readDetails i paycheck = (log, Normal d) ->
  inputIncome d = grossIncome i /\
  inputPeriod d = period i /\
  yearlyInputIncome d =
    convertToYearlyIncome (grossIncome i) (period i) (hoursPerWeek i).
Proof.
  unfold readDetails, read_or_zero, Number.
  repeat match goal with
  | |- context [match paycheck ?name with _ => _ end] =>
      destruct (paycheck name); [ | cbn; discriminate ]
  end.
  cbn. intros [= _ <-]. cbn. auto.
Qed.

(** Without positive income nothing happens; otherwise the constructor is
    called and the run either computes a summary or handles what was
    raised. *)
Lemma calculate_cases (SalaryPaycheck : Package.Constructor) (i : Inputs)
  (year : float) :
  ((0 <? grossIncome i)%float = false /\
   calculate SalaryPaycheck i year = ([], Normal emptySummary))
  \/
  ((0 <? grossIncome i)%float = true /\
   exists paycheck d,
     SalaryPaycheck (paycheckArgs i year) = Normal paycheck /\
     readDetails i paycheck = ([], Normal d) /\
     reads_match paycheck d /\
     calculate SalaryPaycheck i year =
       ([Constructed (paycheckArgs i year)],
        Normal {| taxableBase := taxableYear d;
                  estimatedTax := abs (incomeTax d);
                  netIncome := netYear d;
                  breakdown := buildBreakdown (socialSecurity i) d;
                  details := Some d;
                  error := None |}))
  \/
  ((0 <? grossIncome i)%float = true /\
   exists v,
     raises SalaryPaycheck (paycheckArgs i year) v /\
     calculate SalaryPaycheck i year =
       ([ Constructed (paycheckArgs i year);
          ConsoleError "[useBox1Calculator] Calculation error:" v ],
        match message_of v with
        | Normal message => Normal (failed message)
        | Throw e => Throw e
        end)).
Proof.
  unfold calculate. rewrite guard_is_not_positive.
  destruct (0 <? grossIncome i)%float; cbn [negb]; [right | now left].
  unfold try_block, new_SalaryPaycheck, raises.
  destruct (SalaryPaycheck (paycheckArgs i year)) as [paycheck | v] eqn:Hnew.
  - destruct (readDetails_cases i paycheck)
      as [(d & Hread & Hmatch) | (name & v & Hin & Hget & Hread)].
    + left. split; [reflexivity |]. exists paycheck, d.
      repeat split; trivial. cbn [bind]. rewrite Hread. reflexivity.
    + right. split; [reflexivity |]. exists v. split.
      * right. exists paycheck, name. auto.
      * cbn [bind]. rewrite Hread. cbn [bind try_catch app].
        rewrite catch_block_run. now destruct (message_of v).
  - right. split; [reflexivity |]. exists v.
    split; [now left |]. cbn [bind try_catch].
    rewrite catch_block_run. now destruct (message_of v).
Qed.

(** ** What a run does to the package and the console *)

(** X1.  Whatever the package does, the hook calls its constructor exactly
    once, with the translated arguments, when the income guard
    [!grossIncome || grossIncome <= 0] is false, and not at all when the
    guard is true. *)
Theorem constructor_called_iff_positive (SalaryPaycheck : Package.Constructor)
  (inputs : option Raw.Inputs) (year : option float) :
  constructions (fst (useBox1Calculator SalaryPaycheck inputs year)) =
    if falsy (grossIncome (destructure inputs))
       || (grossIncome (destructure inputs) <=? 0)%float
    then []
    else [paycheckArgs (destructure inputs) (year_or_default year)].
Proof.
  unfold useBox1Calculator, useMemo. rewrite guard_is_not_positive.
  destruct (calculate_cases SalaryPaycheck (destructure inputs)
              (year_or_default year))
    as [(-> & ->) | [(-> & p & d & _ & _ & _ & ->) | (-> & v & _ & ->)]];
    reflexivity.
Qed.

(** X2.  A returned summary has an [error] key exactly when something was
    handed to [console.error]; the key then holds the [message] of a value
    the package raised, that value is the only one logged, and the summary
    has no details. *)
Theorem error_key_traces_raise (SalaryPaycheck : Package.Constructor)
  (inputs : option Raw.Inputs) (year : option float) log s :
  useBox1Calculator SalaryPaycheck inputs year = (log, Normal s) ->
  (error s = None <-> logged_errors log = []) /\
  (forall message, error s = Some message ->
     exists v,
       raises SalaryPaycheck
         (paycheckArgs (destructure inputs) (year_or_default year)) v /\
       message_of v = Normal message /\
       logged_errors log = [v] /\
       details s = None).
Proof.
  unfold useBox1Calculator, useMemo.
  destruct (calculate_cases SalaryPaycheck (destructure inputs)
              (year_or_default year))
    as [(_ & ->) | [(_ & p & d & _ & _ & _ & ->) | (_ & v & Hv & ->)]].
  - intros [= <- <-]. cbn. split; [tauto | discriminate].
  - intros [= <- <-]. cbn. split; [tauto | discriminate].
  - destruct (message_of v) as [m |] eqn:Hm; [| discriminate].
    intros [= <- <-]. cbn. split; [split; discriminate |].
    intros message [= <-]. exists v. auto.
Qed.

Lemma error_key_traces_raise_witness :
  useBox1Calculator (brokenGetter "taxFree" (VStr "no ruling data"))
    (Some sixtyThousand) None =
    ([ Constructed sampleArgs;
       ConsoleError "[useBox1Calculator] Calculation error:"
         (VStr "no ruling data") ],
     Normal (failed VUndefined)) /\
  exists v,
    message_of v = Normal VUndefined /\
    logged_errors
      [ Constructed sampleArgs;
        ConsoleError "[useBox1Calculator] Calculation error:"
          (VStr "no ruling data") ] = [v].
Proof.
  split; [reflexivity |].
  destruct (proj2 (error_key_traces_raise
                     (brokenGetter "taxFree" (VStr "no ruling data"))
                     (Some sixtyThousand) None _ _ eq_refl)
              VUndefined eq_refl)
    as (v & _ & Hmessage & Hlogged & _).
  exists v. split; assumption.
Defined.


(** ** The echoed inputs and the two period tables *)

(** The multipliers table and the selector table have the periods of the
    form as their own keys, and the ruling map has its categories. *)
Lemma tables_keys :
  keys PERIOD_MULTIPLIERS = map Options.value INCOME_PERIODS /\
  keys PERIOD_TO_START_FROM = map Options.value INCOME_PERIODS /\
  keys rulingChoiceMap = map Options.value RULING_30_CATEGORIES.
Proof. repeat split. Qed.

(** Only [hourly] holds [null] in the multipliers table. *)
Lemma null_multiplier_is_hourly (period : string) :
  own_property PERIOD_MULTIPLIERS period = Some None <-> period = "hourly".
Proof.
  split.
  - intros Hown. apply own_property_in in Hown. cbn in Hown.
    repeat destruct Hown as [Hown | Hown]; try contradiction;
      congruence.
  - intros ->. reflexivity.
Qed.

(** A period the form does not offer is an own key of neither table. *)
Lemma not_offered_not_own (period : string) :
  ~ In period (map Options.value INCOME_PERIODS) ->
  own_property PERIOD_MULTIPLIERS period = None /\
  own_property PERIOD_TO_START_FROM period = None.
Proof.
  intros Hunknown. split.
  - destruct (own_property PERIOD_MULTIPLIERS period) eqn:Hown; [| reflexivity].
    exfalso. apply Hunknown. rewrite <- (proj1 tables_keys).
    apply own_property_keys. congruence.
  - destruct (own_property PERIOD_TO_START_FROM period) eqn:Hown; [| reflexivity].
    exfalso. apply Hunknown. rewrite <- (proj1 (proj2 tables_keys)).
    apply own_property_keys. congruence.
Qed.

(** Without an own multiplier the product is taken with [undefined] or with
    an inherited function: it is [NaN]. *)
Lemma product_without_multiplier (income : float) (period : string)
  (hoursPerWeek : float) :
  (0 <? income)%float = true ->
  own_property PERIOD_MULTIPLIERS period = None ->
  is_nan (convertToYearlyIncome income period hoursPerWeek) = true.
Proof.
  intros Hpos Hown. unfold convertToYearlyIncome, get.
  rewrite (positive_passes_guard _ Hpos), Hown.
  destruct (inherited period); apply mul_NaN.
Qed.

(** X4.  A summary with details is returned after exactly one event, the
    constructor call, and carries no [error] key.  Its details echo
    [Number(grossIncome)] and the period as entered, and when that echoed
    income is above zero, [yearlyInputIncome] is the income times the
    period's multiplier (times the weekly hours and 52 for an hourly
    income). *)
Theorem computed_summary_echoes_inputs (SalaryPaycheck : Package.Constructor)
  (inputs : option Raw.Inputs) (year : option float) log s d :
  useBox1Calculator SalaryPaycheck inputs year = (log, Normal s) ->
  details s = Some d ->
  (0 <? inputIncome d)%float = true ->
  log = [Constructed (paycheckArgs (destructure inputs) (year_or_default year))] /\
  error s = None /\
  inputIncome d = Number (grossIncome (destructure inputs)) /\
  inputPeriod d = period (destructure inputs) /\
  (forall multiplier,
     own_property PERIOD_MULTIPLIERS (inputPeriod d) = Some (Some multiplier) ->
     yearlyInputIncome d = (inputIncome d * multiplier)%float) /\
  (inputPeriod d = "hourly" ->
   yearlyInputIncome d =
     (inputIncome d * hoursPerWeek (destructure inputs) * 52)%float).
Proof.
  unfold useBox1Calculator, useMemo.
  destruct (calculate_cases SalaryPaycheck (destructure inputs)
              (year_or_default year))
    as [(_ & ->) | [(_ & p & d' & _ & Hread & _ & ->) | (_ & v & _ & ->)]].
  - intros [= _ <-]. discriminate.
  - intros [= <- <-]. cbn [details error]. intros [= <-].
    destruct (readDetails_echo _ _ _ _ Hread) as (-> & -> & ->).
    intros Hpos. unfold Number. repeat split; trivial.
    + intros multiplier Hown. unfold convertToYearlyIncome, get.
      now rewrite (positive_passes_guard _ Hpos), Hown.
    + intros Hhourly. unfold convertToYearlyIncome, get.
      now rewrite (positive_passes_guard _ Hpos), Hhourly.
  - destruct (message_of v); intros [= _ <-]; discriminate.
Qed.

Lemma computed_summary_echoes_inputs_witness :
  exists log s d,
    useBox1Calculator (reporting figures2025) (Some hourlyWage) None =
      (log, Normal s) /\
    details s = Some d /\
    (0 <? inputIncome d)%float = true /\
    inputPeriod d = "hourly" /\
    yearlyInputIncome d = 46800%float.
Proof.
  eexists. eexists. eexists.
  split; [reflexivity |]. split; [reflexivity |]. split; [reflexivity |].
  split; [reflexivity |].
  refine (proj2 (proj2 (proj2 (proj2 (proj2
            (computed_summary_echoes_inputs (reporting figures2025)
               (Some hourlyWage) None _ _ _ eq_refl eq_refl eq_refl)))))
            eq_refl).
Defined.

(** X5.  For an income above zero and a period that is not one the form
    offers, the normaliser returns [NaN]: there is no fallback multiplier
    and no error. *)
Theorem unknown_period_is_NaN (income : float) (period : string)
  (hoursPerWeek : float) :
  (0 <? income)%float = true ->
  ~ In period (map Options.value INCOME_PERIODS) ->
  is_nan (convertToYearlyIncome income period hoursPerWeek) = true.
Proof.
  intros Hpos Hunknown.
  apply product_without_multiplier; [exact Hpos |].
  exact (proj1 (not_offered_not_own period Hunknown)).
Qed.

Lemma unknown_period_is_NaN_witness :
  (0 <? 2500)%float = true /\
  ~ In "constructor" (map Options.value INCOME_PERIODS) /\
  is_nan (convertToYearlyIncome 2500 "constructor" 40) = true.
Proof.
  assert (~ In "constructor" (map Options.value INCOME_PERIODS)) as Hunknown.
  { cbn. intros Hin.
    repeat destruct Hin as [Hin | Hin]; try contradiction; discriminate. }
  split; [reflexivity |]. split; [exact Hunknown |].
  exact (unknown_period_is_NaN 2500 "constructor" 40 eq_refl Hunknown).
Defined.

(** X6.  The two period translations disagree on an unknown period.  For a
    period that is neither offered by the form nor a member of
    [Object.prototype], a computed summary comes from a constructor call with
    the selector 'Year', while, for an echoed income above zero, the
    [yearlyInputIncome] detail is [NaN]. *)
Theorem unknown_period_fallbacks_disagree
  (SalaryPaycheck : Package.Constructor) (inputs : option Raw.Inputs)
  (year : option float) log s d :
  useBox1Calculator SalaryPaycheck inputs year = (log, Normal s) ->
  details s = Some d ->
  (0 <? inputIncome d)%float = true ->
  ~ In (period (destructure inputs)) (map Options.value INCOME_PERIODS) ->
  inherited (period (destructure inputs)) = false ->
  (exists args, constructions log = [args] /\
                Package.startFrom args = VStr "Year") /\
  is_nan (yearlyInputIncome d) = true.
Proof.
  unfold useBox1Calculator, useMemo.
  destruct (calculate_cases SalaryPaycheck (destructure inputs)
              (year_or_default year))
    as [(_ & ->) | [(_ & p & d' & _ & Hread & _ & ->) | (_ & v & _ & ->)]].
  - intros [= _ <-]. discriminate.
  - intros [= <- <-]. cbn [details constructions].
    intros [= <-] Hpos Hunknown Hinherited.
    destruct (readDetails_echo _ _ _ _ Hread) as (Hincome & _ & ->).
    rewrite Hincome in Hpos.
    split.
    + eexists. split; [reflexivity |]. cbn.
      apply fallback_for_unknown_key; [| exact Hinherited].
      exact (proj2 (not_offered_not_own _ Hunknown)).
    + apply product_without_multiplier; [exact Hpos |].
      exact (proj1 (not_offered_not_own _ Hunknown)).
  - destruct (message_of v); intros [= _ <-]; discriminate.
Qed.

Lemma unknown_period_fallbacks_disagree_witness :
  exists log s d,
    useBox1Calculator (reporting figures2025) (Some fortnightly) None =
      (log, Normal s) /\
    details s = Some d /\
    (0 <? inputIncome d)%float = true /\
    (exists args, constructions log = [args] /\
                  Package.startFrom args = VStr "Year") /\
    is_nan (yearlyInputIncome d) = true.
Proof.
  eexists. eexists. eexists.
  split; [reflexivity |]. split; [reflexivity |]. split; [reflexivity |].
  apply (unknown_period_fallbacks_disagree (reporting figures2025)
           (Some fortnightly) None _ _ _ eq_refl eq_refl eq_refl).
  - cbn. intros Hin.
    repeat destruct Hin as [Hin | Hin]; try contradiction; discriminate.
  - reflexivity.
Defined.

(** X7.  For every period and every ruling category the form offers, the
    constructor receives the table's translation as a string: the selector
    paired with the period in [PERIOD_TO_START_FROM] and one of the three
    choices the package expects ('normal', 'young', 'research').  With
    offered options no fallback is taken and nothing inherited is passed. *)
Theorem offered_options_are_translated (i : Inputs) (year : float) :
  In (period i) (map Options.value INCOME_PERIODS) ->
  In (ruling30Category i) (map Options.value RULING_30_CATEGORIES) ->
  (exists selector,
     In (period i, selector) PERIOD_TO_START_FROM /\
     Package.startFrom (paycheckArgs i year) = VStr selector) /\
  (exists choice,
     In (ruling30Category i, choice) rulingChoiceMap /\
     In choice ["normal"; "young"; "research"] /\
     Package.choice (Package.ruling (paycheckArgs i year)) = VStr choice).
Proof.
  destruct i as [g p h a o r c ss]. cbn [period ruling30Category].
  intros Hperiod Hcategory. cbn in Hperiod, Hcategory. split.
  - repeat destruct Hperiod as [<- | Hperiod]; try contradiction;
      eexists; (split; [| reflexivity]); in_list.
  - repeat destruct Hcategory as [<- | Hcategory]; try contradiction;
      eexists; (split; [| split; [| reflexivity]]); in_list.
Qed.

Lemma offered_options_are_translated_witness :
  In (period (destructure (Some hourlyWage))) (map Options.value INCOME_PERIODS) /\
  In (ruling30Category (destructure (Some hourlyWage)))
    (map Options.value RULING_30_CATEGORIES) /\
  exists selector,
    In ("hourly", selector) PERIOD_TO_START_FROM /\
    Package.startFrom (paycheckArgs (destructure (Some hourlyWage)) 2025) =
      VStr selector.
Proof.
  assert (In (period (destructure (Some hourlyWage)))
            (map Options.value INCOME_PERIODS)) as Hperiod by in_list.
  assert (In (ruling30Category (destructure (Some hourlyWage)))
            (map Options.value RULING_30_CATEGORIES)) as Hcategory by in_list.
  split; [exact Hperiod |]. split; [exact Hcategory |].
  exact (proj1 (offered_options_are_translated
                  (destructure (Some hourlyWage)) 2025 Hperiod Hcategory)).
Defined.

(** X8.  The weekly hours enter the annual income for the period [hourly]
    only: for any other period, offered or not, the normaliser returns the
    same number whatever the hours are. *)
Theorem hours_matter_only_hourly (income : float) (period : string)
  (hours hours' : float) :
  period <> "hourly" ->
  convertToYearlyIncome income period hours =
  convertToYearlyIncome income period hours'.
Proof.
  intros Hperiod. unfold convertToYearlyIncome, get.
  destruct (own_property PERIOD_MULTIPLIERS period) as [[m |] |] eqn:Hown;
    try reflexivity.
  - apply null_multiplier_is_hourly in Hown. contradiction.
  - now destruct (inherited period).
Qed.

Lemma hours_matter_only_hourly_witness :
  "daily" <> "hourly" /\
  convertToYearlyIncome 200 "daily" 40 = convertToYearlyIncome 200 "daily" nan.
Proof.
  assert ("daily" <> "hourly") as Hperiod by discriminate.
  split; [exact Hperiod |].
  exact (hours_matter_only_hourly 200 "daily" 40 nan Hperiod).
Defined.

(** ** More about the rows *)

(** X9.  Every row of a computed breakdown shows the detail its label names
    (for instance "Payroll tax" shows [payrollTax]), and a conditional
    amount row is never shown with a zero, negative or [NaN] amount: the
    holiday-allowance and 30%-ruling rows have an amount above zero. *)
Theorem rows_show_their_details (SalaryPaycheck : Package.Constructor)
  (inputs : option Raw.Inputs) (year : option float) log s d :
  useBox1Calculator SalaryPaycheck inputs year = (log, Normal s) ->
  details s = Some d ->
  forall row, In row (breakdown s) ->
    (exists proj,
       In (description row, proj) ROW_FIELDS /\ amount row = proj d) /\
    (description row = "Holiday allowance (8%)" \/
     description row = "30% ruling tax-free amount" ->
     (0 <? amount row)%float = true).
Proof.
  intros Hrun Hd row.
  rewrite (calculate_computed _ _ _ _ _ _ Hrun Hd). cbn [breakdown].
  unfold buildBreakdown, spread_if.
  destruct (0 <? grossAllowance d)%float eqn:Hallowance,
    (0 <? taxFree d)%float eqn:Hruling,
    (socialSecurity (destructure inputs));
    cbn; intros Hin;
    repeat destruct Hin as [<- | Hin]; try contradiction; cbn;
    (split;
     [ eexists; split; [in_list | reflexivity]
     | intros [Hlabel | Hlabel]; trivial; discriminate Hlabel ]).
Qed.

Lemma rows_show_their_details_witness :
  useBox1Calculator (reporting figures2025) (Some sixtyThousand) None =
    ([Constructed sampleArgs], Normal sampleSummary) /\
  details sampleSummary = Some sampleDetails /\
  In {| description := "Holiday allowance (8%)"; amount := 4444.5%float |}
    (breakdown sampleSummary) /\
  (0 <? 4444.5)%float = true.
Proof.
  assert (In {| description := "Holiday allowance (8%)";
                amount := 4444.5%float |}
            (breakdown sampleSummary)) as Hin by (right; left; reflexivity).
  split; [reflexivity |]. split; [reflexivity |]. split; [exact Hin |].
  exact (proj2 (rows_show_their_details (reporting figures2025)
                  (Some sixtyThousand) None _ _ _ eq_refl eq_refl _ Hin)
           (or_introl eq_refl)).
Defined.

(** X10.  In a computed breakdown no label occurs twice, and the number of
    rows is seven plus one for each condition that holds
    ([grossAllowance > 0], [taxFree > 0], [socialSecurity]). *)
Theorem rows_are_distinct_and_counted (SalaryPaycheck : Package.Constructor)
  (inputs : option Raw.Inputs) (year : option float) log s d :
  useBox1Calculator SalaryPaycheck inputs year = (log, Normal s) ->
  details s = Some d ->
  NoDup (labels (breakdown s)) /\
  length (breakdown s) =
    7 + conditional_rows (socialSecurity (destructure inputs)) d.
Proof.
  intros Hrun Hd.
  rewrite (calculate_computed _ _ _ _ _ _ Hrun Hd). cbn [breakdown].
  unfold buildBreakdown, spread_if, conditional_rows.
  destruct (0 <? grossAllowance d)%float, (0 <? taxFree d)%float,
    (socialSecurity (destructure inputs)); cbn;
    (split; [| reflexivity]);
    repeat (constructor;
            [ cbn; intros Hin;
              repeat destruct Hin as [Hin | Hin];
              try contradiction; discriminate Hin | ]);
    constructor.
Qed.

Lemma rows_are_distinct_and_counted_witness :
  useBox1Calculator (reporting figures2025) (Some sixtyThousand) None =
    ([Constructed sampleArgs], Normal sampleSummary) /\
  details sampleSummary = Some sampleDetails /\
  length (breakdown sampleSummary) = 9.
Proof.
  split; [reflexivity |]. split; [reflexivity |].
  exact (proj2 (rows_are_distinct_and_counted (reporting figures2025)
                  (Some sixtyThousand) None _ _ _ eq_refl eq_refl)).
Defined.

(** ** The order of the property reads *)

Ltac rewrite_earlier_reads H n :=
  lazymatch n with
  | O => idtac
  | S ?m =>
      let f := fresh "f" in
      let Hf := fresh "Hf" in
      destruct (H m ltac:(lia)) as [f Hf];
      cbn in Hf; rewrite Hf; rewrite_earlier_reads H m
  end.

(** Reading stops at the first getter that throws, in reading order. *)
Lemma readDetails_first_throw (i : Inputs) (paycheck : Package.Paycheck)
  (k : nat) (v : value) :
  k < length Package.FIELDS ->
  (forall j, j < k ->
     exists f, paycheck (nth j Package.FIELDS "") = Normal f) ->
  paycheck (nth k Package.FIELDS "") = Throw v ->
  readDetails i paycheck = ([], Throw v).
Proof.
  intros Hk Hearlier Hthrow. unfold readDetails, read_or_zero.
  do 20 (destruct k as [| k];
         [ cbn in Hthrow; rewrite Hthrow;
           match type of Hearlier with
           | forall j, j < ?n -> _ => rewrite_earlier_reads Hearlier n
           end;
           reflexivity
         | ]).
  cbn in Hk. lia.
Qed.

(** X11.  The getters are read in the order of the [details] literal and
    reading stops at the first one that throws: when the [k]-th property
    read throws [v] and the reads before it succeed, [v] is the value handed
    to [console.error] and the one whose [message] becomes the summary's
    [error], whatever the later getters would do. *)
Theorem first_throwing_getter_is_reported
  (SalaryPaycheck : Package.Constructor) (inputs : option Raw.Inputs)
  (year : option float) (paycheck : Package.Paycheck) (k : nat) (v : value) :
  (0 <? grossIncome (destructure inputs))%float = true ->
  SalaryPaycheck (paycheckArgs (destructure inputs) (year_or_default year)) =
    Normal paycheck ->
  k < length Package.FIELDS ->
  (forall j, j < k ->
     exists f, paycheck (nth j Package.FIELDS "") = Normal f) ->
  paycheck (nth k Package.FIELDS "") = Throw v ->
  logged_errors (fst (useBox1Calculator SalaryPaycheck inputs year)) = [v] /\
  snd (useBox1Calculator SalaryPaycheck inputs year) =
    match message_of v with
    | Normal message => Normal (failed message)
    | Throw e => Throw e
    end.
Proof.
  intros Hpos Hnew Hk Hearlier Hthrow.
  unfold useBox1Calculator, useMemo, calculate.
  rewrite (positive_passes_guard _ Hpos).
  unfold try_block, new_SalaryPaycheck. rewrite Hnew. cbn [bind].
  rewrite (readDetails_first_throw _ _ k v Hk Hearlier Hthrow).
  cbn [bind try_catch app]. rewrite catch_block_run.
  destruct (message_of v); split; reflexivity.
Qed.

Lemma first_throwing_getter_is_reported_witness :
  (0 <? grossIncome (destructure (Some sixtyThousand)))%float = true /\
  nth 7 Package.FIELDS "" = "taxFree" /\
  logged_errors
    (fst (useBox1Calculator twoBrokenGetters (Some sixtyThousand) None)) =
    [VStr "no ruling"] /\
  snd (useBox1Calculator twoBrokenGetters (Some sixtyThousand) None) =
    Normal (failed VUndefined).
Proof.
  split; [reflexivity |]. split; [reflexivity |].
  apply (first_throwing_getter_is_reported twoBrokenGetters
           (Some sixtyThousand) None
           (fun name =>
              if String.eqb name "netYear" then Throw (VError "no net year")
              else if String.eqb name "taxFree" then Throw (VStr "no ruling")
              else Normal (FNum 1%float))
           7 (VStr "no ruling")).
  - reflexivity.
  - reflexivity.
  - cbn. lia.
  - intros j Hj.
    do 7 (destruct j as [| j]; [eexists; reflexivity |]). lia.
  - reflexivity.
Defined.

(** ** Errors raised by the package *)

(** With income above zero, when the first thing the package raises is an
    [Error] instance, the hook logs it and returns the empty summary with the
    error's message as its [error] string, whatever the getters it has not
    read yet would do. *)
Lemma raised_error_absorbed (SalaryPaycheck : Package.Constructor)
  (inputs : option Raw.Inputs) (year : option float) (message : string) :
  (0 <? grossIncome (destructure inputs))%float = true ->
  raises_first SalaryPaycheck
    (paycheckArgs (destructure inputs) (year_or_default year))
    (VError message) ->
  useBox1Calculator SalaryPaycheck inputs year =
    ([ Constructed (paycheckArgs (destructure inputs) (year_or_default year));
       ConsoleError "[useBox1Calculator] Calculation error:" (VError message) ],
     Normal (failed (VStr message))).
Proof.
  intros Hpos Hraised.
  unfold useBox1Calculator, useMemo, calculate.
  rewrite (positive_passes_guard _ Hpos).
  unfold try_block, new_SalaryPaycheck.
  destruct Hraised as [-> | (paycheck & k & -> & Hk & Hearlier & Hthrow)];
    cbn [bind].
  - cbn [try_catch]. rewrite catch_block_run. reflexivity.
  - rewrite (readDetails_first_throw _ _ k _ Hk Hearlier Hthrow).
    cbn [bind try_catch app]. rewrite catch_block_run. reflexivity.
Qed.

(** An [Error] from the first getter is absorbed although a later getter
    would throw [undefined]. *)
Example error_before_undefined_absorbed :
  useBox1Calculator errorThenUndefined (Some sixtyThousand) None =
    ([ Constructed sampleArgs;
       ConsoleError "[useBox1Calculator] Calculation error:"
         (VError "no gross year") ],
     Normal (failed (VStr "no gross year"))).
Proof.
  apply (raised_error_absorbed errorThenUndefined (Some sixtyThousand) None).
  - reflexivity.
  - right. eexists. exists 0. split; [reflexivity |].
    split; [cbn; lia |]. split; [intros j Hj; lia | reflexivity].
Qed.
